(** * NXEngine-iOS virtual joystick (vjoy.cpp): model and properties

    A shallow embedding of [src/vjoy.cpp]: the geometry helpers, the
    directional wheel, the overlay button grid, the per-game-mode pads,
    the context stack of [specScreenChanged] and the finger tracker of
    [InjectInputEvent] / [ProcessInput].

    C++ [float] is IEEE binary32; it is modelled with the executable
    specification of IEEE arithmetic of the standard library
    ([spec_float] at precision 24, maximal exponent 128), every
    operation rounding to nearest-even as the hardware does (each
    [float] operation is rounded to [float]: no excess precision and no
    fused multiply-add).

    [VKeys::Pad::process], the floating pad driven by [atan2], is called
    from nowhere and is left out. *)

From Stdlib Require Import ZArith List Bool Lia.
From Stdlib Require Import Floats.SpecFloat.
From stdpp Require Import base gmap list sorting.

Local Open Scope Z_scope.

(** ** Binary32 arithmetic *)

Module F32.
Definition prec : Z := 24.
Definition emax : Z := 128.

Definition t : Type := spec_float.

Definition zero : t := S754_zero false.
Definition add : t -> t -> t := SFadd prec emax.
Definition sub : t -> t -> t := SFsub prec emax.
Definition mul : t -> t -> t := SFmul prec emax.
Definition div : t -> t -> t := SFdiv prec emax.
Definition ltb : t -> t -> bool := SFltb.

(** [m * 2^e], rounded. *)
Definition make (m e : Z) : t := binary_normalize prec emax m e false.

(** Conversion of an integer to [float]. *)
Definition of_Z (z : Z) : t := make z 0.

(** The literal [n/d] written in decimal in the source ([0.82f] is
    [lit 82 100]): the binary32 number nearest to the decimal value,
    which is what the correctly rounded quotient of two exactly
    representable integers gives. *)
Definition lit (n d : Z) : t := div (of_Z n) (of_Z d).

(** Conversion of a [float] to [int]: truncation toward zero.  The
    conversion of an infinity or a NaN is undefined in C++; the model
    returns [0] there. *)
Definition to_int (f : t) : Z :=
  match f with
  | S754_finite s m e =>
      let v := Z.shiftl (Zpos m) e in if s then - v else v
  | _ => 0
  end.
End F32.

(** ** Helpers: Point, Rect, Tri *)

Record Point : Type := mkPoint { Point_x : F32.t; Point_y : F32.t }.

(** [operator+], [operator-], [operator*(float k)]. *)
Definition Point_add (l r : Point) : Point :=
  mkPoint (F32.add (Point_x l) (Point_x r)) (F32.add (Point_y l) (Point_y r)).

Definition Point_sub (l r : Point) : Point :=
  mkPoint (F32.sub (Point_x l) (Point_x r)) (F32.sub (Point_y l) (Point_y r)).

Definition Point_scale (p : Point) (k : F32.t) : Point :=
  mkPoint (F32.mul k (Point_x p)) (F32.mul k (Point_y p)).

Record Rect : Type := mkRect
  { Rect_x : F32.t; Rect_y : F32.t; Rect_w : F32.t; Rect_h : F32.t }.

(** [Rect::centred]. *)
Definition Rect_centred (p : Point) (w h : F32.t) : Rect :=
  mkRect (F32.sub (Point_x p) (F32.div w (F32.of_Z 2)))
         (F32.sub (Point_y p) (F32.div h (F32.of_Z 2))) w h.

(** [Rect::point_in]:
    [!(px < x || x + w < px || py < y || y + h < py)]. *)
Definition Rect_point_in (r : Rect) (p : Point) : bool :=
  negb (F32.ltb (Point_x p) (Rect_x r)
        || F32.ltb (F32.add (Rect_x r) (Rect_w r)) (Point_x p)
        || F32.ltb (Point_y p) (Rect_y r)
        || F32.ltb (F32.add (Rect_y r) (Rect_h r)) (Point_y p)).

Record Tri : Type := mkTri { Tri_a : Point; Tri_b : Point; Tri_c : Point }.

(** The C library's [cos] and [sin] are not part of the sources.  [Tri]'s
    constructor evaluates them at [double(k) * M_PI / 8.0] for the odd
    [k] between -7 and 7 only, and [Point]'s constructor converts the
    results to [float]; these binary32 values are tabulated here.  Up to
    sign they are the two numbers nearest to cos(pi/8) and sin(pi/8). *)
Definition cos_pi8 : F32.t := F32.make 15500126 (-24).
Definition sin_pi8 : F32.t := F32.make 12840725 (-25).

Definition cosP (k : Z) : F32.t :=
  match k with
  | 1 | -1 => cos_pi8
  | 3 | -3 => sin_pi8
  | 5 | -5 => SFopp sin_pi8
  | 7 | -7 => SFopp cos_pi8
  | _ => S754_nan
  end.

Definition sinP (k : Z) : F32.t :=
  match k with
  | 1 | 7 => sin_pi8
  | 3 | 5 => cos_pi8
  | -1 | -7 => SFopp sin_pi8
  | -3 | -5 => SFopp cos_pi8
  | _ => S754_nan
  end.

(** [Tri::Tri(a, size, rb, rc)]. *)
Definition Tri_make (a : Point) (size : F32.t) (rb rc : Z) : Tri :=
  mkTri a
    (Point_add (Point_scale (mkPoint (cosP rb) (sinP rb)) size) a)
    (Point_add (Point_scale (mkPoint (cosP rc) (sinP rc)) size) a).

(** [Tri::sign]. *)
Definition Tri_sign (p1 p2 p3 : Point) : F32.t :=
  F32.sub
    (F32.mul (F32.sub (Point_x p1) (Point_x p3)) (F32.sub (Point_y p2) (Point_y p3)))
    (F32.mul (F32.sub (Point_x p2) (Point_x p3)) (F32.sub (Point_y p1) (Point_y p3))).

(** [Tri::in]. *)
Definition Tri_in (t : Tri) (pt : Point) : bool :=
  let b1 := F32.ltb (Tri_sign pt (Tri_a t) (Tri_b t)) F32.zero in
  let b2 := F32.ltb (Tri_sign pt (Tri_b t) (Tri_c t)) F32.zero in
  let b3 := F32.ltb (Tri_sign pt (Tri_c t) (Tri_a t)) F32.zero in
  eqb b1 b2 && eqb b2 b3.

(** ** Colours and drawing commands

    The rendering primitives of [Graphics] are external; a drawing
    routine is modelled by the list of calls it makes, in order. *)

Record NXColor : Type := mkColor { col_r : Z; col_g : Z; col_b : Z }.

Definition col_released : NXColor := mkColor 0xff 0xcf 0x33.
Definition col_pressed : NXColor := mkColor 0xff 0x00 0x00.

Inductive DrawCmd : Type :=
| FillRect (x1 y1 x2 y2 : Z) (c : NXColor)
| DrawRect (x1 y1 x2 y2 : Z) (c : NXColor)
| DrawLine (x1 y1 x2 y2 : Z) (c : NXColor).

(** ** The logical inputs

    [input.h] is not among the sources; the indices are those of the
    [vkeys] table, whose initialisers are listed in index order with the
    key names in comments. *)
Definition LEFTKEY : nat := 0.
Definition RIGHTKEY : nat := 1.
Definition UPKEY : nat := 2.
Definition DOWNKEY : nat := 3.
Definition JUMPKEY : nat := 4.
Definition FIREKEY : nat := 5.
Definition INPUT_COUNT : nat := 26.

Definition Flags : Type := (list bool * list bool)%type.

(** ** VKeys::Pad: the directional wheel *)

Module Pad.
Definition seg_size : F32.t := F32.lit 13 100.
Definition seg_center : Point := mkPoint (F32.lit 82 100) (F32.lit 82 100).
Definition seg_count : nat := 8.

Definition segments : list Tri :=
  [ Tri_make seg_center seg_size (-1) 1;
    Tri_make seg_center seg_size 1 3;
    Tri_make seg_center seg_size 3 5;
    Tri_make seg_center seg_size 5 7;
    Tri_make seg_center seg_size 7 (-7);
    Tri_make seg_center seg_size (-7) (-5);
    Tri_make seg_center seg_size (-5) (-3);
    Tri_make seg_center seg_size (-3) (-1) ].

(** [segments[i].in(p)]. *)
Definition seg_in (i : nat) (p : Point) : bool :=
  match segments !! i with
  | Some t => Tri_in t p
  | None => false
  end.

(** The radius gate of [update_buttons]: [r2 > seg_size*seg_size]. *)
Definition outside (p : Point) : bool :=
  let vec := Point_sub p seg_center in
  let r2 := F32.add (F32.mul (Point_x vec) (Point_x vec))
                    (F32.mul (Point_y vec) (Point_y vec)) in
  F32.ltb (F32.mul seg_size seg_size) r2.

(** [Pad::update_buttons], on the pair of arrays [inputs], [pressed]. *)
Definition update_buttons (p : Point) (io : Flags) : Flags :=
  if outside p then io
  else
    let inputs := io.1 in
    let inputs := <[LEFTKEY := seg_in 3 p || seg_in 4 p || seg_in 5 p]> inputs in
    let inputs := <[RIGHTKEY := seg_in 7 p || seg_in 0 p || seg_in 1 p]> inputs in
    let inputs := <[UPKEY := seg_in 5 p || seg_in 6 p || seg_in 7 p]> inputs in
    let inputs := <[DOWNKEY := seg_in 1 p || seg_in 2 p || seg_in 3 p]> inputs in
    (inputs,
     fold_left (fun pressed i => <[i := seg_in i p]> pressed)
               (seq 0 seg_count) io.2).
End Pad.

(** ** VKeys: the overlay button grid *)

Module VKeys.
Definition none : Rect :=
  mkRect (F32.of_Z (-1)) (F32.of_Z (-1)) (F32.of_Z (-1)) (F32.of_Z (-1)).

Definition key (xn xd yn yd wn wd hn hd : Z) : Rect :=
  mkRect (F32.lit xn xd) (F32.lit yn yd) (F32.lit wn wd) (F32.lit hn hd).

(** A direction key, whose [x] has been replaced by [-1.f]. *)
Definition dirkey (yn yd : Z) : Rect :=
  mkRect (F32.of_Z (-1)) (F32.lit yn yd) (F32.lit 1 10) (F32.lit 1 10).

Definition vkeys : list Rect :=
  [ dirkey 8 10;                       (* LEFTKEY *)
    dirkey 8 10;                       (* RIGHTKEY *)
    dirkey 7 10;                       (* UPKEY *)
    dirkey 9 10;                       (* DOWNKEY *)
    key 0 100 8 10 14 100 2 10;        (* JUMPKEY *)
    key 15 100 8 10 14 100 2 10;       (* FIREKEY *)
    key 0 100 55 100 1 10 1 10;        (* PREVWPNKEY *)
    key 15 100 55 100 1 10 1 10;       (* NEXTWPNKEY *)
    key 0 100 0 10 1 10 1 10;          (* INVENTORYKEY *)
    key 15 100 0 10 1 10 1 10;         (* MAPSYSTEMKEY *)
    key 40 100 0 10 1 10 1 10;         (* ESCKEY *)
    key 55 100 0 10 1 10 1 10;         (* F1KEY *)
    key 70 100 0 10 1 10 1 10;         (* F2KEY *)
    key 85 100 0 10 1 10 1 10;         (* F3KEY *)
    none; none; none; none; none; none; none; none; none;  (* F4KEY .. F12KEY *)
    none;                              (* FREEZE_FRAME_KEY *)
    none;                              (* FRAME_ADVANCE_KEY *)
    none ].                            (* DEBUG_FLY_KEY *)

(** One turn of the loop of [VKeys::update_buttons]. *)
Definition update_key (p : Point) (inputs : list bool) (i : nat) : list bool :=
  match vkeys !! i with
  | Some r =>
      if F32.ltb (Rect_x r) F32.zero then inputs
      else if Rect_point_in r p then <[i := true]> inputs
      else inputs
  | None => inputs
  end.

(** [VKeys::update_buttons]. *)
Definition update_buttons (p : Point) (io : Flags) : Flags :=
  Pad.update_buttons p
    (fold_left (update_key p) (seq 0 INPUT_COUNT) io.1, io.2).
End VKeys.

(** ** Touch modes, settings, game modes, screens *)

Module VjoyMode.
Inductive Mode : Type := ETOUCH | EGESTURE | EBOTH.

#[global] Instance Mode_eq_dec : EqDecision Mode.
Proof. solve_decision. Defined.
End VjoyMode.

(** [settings.h] is not among the sources.  [Settings::Tap::Place] is
    given the enumerators the source names; the value stored in
    [settings->tap[place]] is one of the three enumerators of the
    [switch] of [getModeFromSettings], or any other number. *)
Module Settings.
Module Tap.
Inductive Place : Type :=
| EInventory | EMapSystem | EMovies | ETitle | EPause | EOptions
| EIngameDialog | ESaveLoad.

Inductive Style : Type :=
| ETAP | EPAD | EBOTH
| EUnrecognized (raw : Z).

Definition recognized (s : Style) : bool :=
  match s with
  | EUnrecognized _ => false
  | _ => true
  end.
End Tap.
End Settings.

(** [game_modes.h] is not among the sources; the game modes are listed
    in the order of the [pads] table, which is indexed by them. *)
Inductive GameModes : Type :=
| GM_NONE | GM_NORMAL | GM_INVENTORY | GM_MAP_SYSTEM | GM_ISLAND
| GM_CREDITS | GM_INTRO | GM_TITLE | GP_PAUSED | GP_OPTIONS.

#[global] Instance GameModes_eq_dec : EqDecision GameModes.
Proof. solve_decision. Defined.

Definition NUM_GAMEMODES : nat := 10.

Definition gm_index (gm : GameModes) : nat :=
  match gm with
  | GM_NONE => 0 | GM_NORMAL => 1 | GM_INVENTORY => 2 | GM_MAP_SYSTEM => 3
  | GM_ISLAND => 4 | GM_CREDITS => 5 | GM_INTRO => 6 | GM_TITLE => 7
  | GP_PAUSED => 8 | GP_OPTIONS => 9
  end.

(** The modal screens of [specScreenChanged]. *)
Inductive SpecScreens : Type :=
| ETextBox | ESaveLoad | EYesNo | EStageSelect1 | EStageSelect2.

(** ** Events *)

Inductive SDL_EventType : Type :=
| SDL_FINGERDOWN | SDL_FINGERUP | SDL_FINGERMOTION.

#[global] Instance SDL_EventType_eq_dec : EqDecision SDL_EventType.
Proof. solve_decision. Defined.

(** The fields of [SDL_Event] that [InjectInputEvent] reads. *)
Record SDL_Event : Type := mkEvent
  { ev_type : SDL_EventType;
    tfinger_fingerId : Z;
    tfinger_touchId : Z;
    tfinger_x : Z;
    tfinger_y : Z }.

(** ** Outcomes

    A call either returns, or the program is terminated by
    [assert(false)], or it calls through the null [ppads]. *)
Inductive outcome (A : Type) : Type :=
| Done (a : A)
| AssertFailed
| NullDeref.
Arguments Done {A} a.
Arguments AssertFailed {A}.
Arguments NullDeref {A}.

#[global] Instance outcome_ret : MRet outcome := fun A a => Done a.
#[global] Instance outcome_bind : MBind outcome := fun A B f c =>
  match c with
  | Done a => f a
  | AssertFailed => AssertFailed
  | NullDeref => NullDeref
  end.

(** ** The global state *)

(** [state_t], the frame of the context stack of [specScreenChanged]. *)
Record state_t : Type := mkFrame
  { st_mode : VjoyMode.Mode;
    st_gm : GameModes;
    st_gm_draw : bool;
    st_normal_textbox_mode : bool }.

(** The globals of [vjoy.cpp], with the two pieces of external state it
    reads or drives: [gamemode], what [getGamemode()] returns, and
    [gesture_recognizer], the last value given to
    [toggleGestureRecognizer].  [lastFingerPos] is the [std::map] from
    finger to position, [ignoredFingers] the [std::set]; [disable_draw]
    lists the [disable_draw] member of the ten pads and [textbox_mode]
    is the member of [normalModePad]; [ppads] tells whether the pointer
    [ppads] has been set to [pads] (it starts out null); [states] is the
    static stack of [specScreenChanged], top first; [taps] is the buffer
    of [gestureObserver]; [sGO] tells whether the observer pointer of
    [touch_control.cpp] has been set. *)
Record VJoyState : Type := mkState
  { vjoy_enabled : bool;
    vjoy_visible : bool;
    vjoy_mode : VjoyMode.Mode;
    gesture_recognizer : bool;
    xres : F32.t;
    yres : F32.t;
    lastFingerPos : gmap Z Point;
    ignoredFingers : gset Z;
    inputs : list bool;
    pressed : list bool;
    disable_draw : list bool;
    textbox_mode : bool;
    ppads : bool;
    states : list state_t;
    taps : list Point;
    sGO : bool;
    gamemode : GameModes }.

(** Assignments to one global. *)

Definition set_vjoy_enabled (v : bool) (s : VJoyState) : VJoyState :=
  mkState v (vjoy_visible s) (vjoy_mode s) (gesture_recognizer s) (xres s)
    (yres s) (lastFingerPos s) (ignoredFingers s) (inputs s) (pressed s)
    (disable_draw s) (textbox_mode s) (ppads s) (states s) (taps s) (sGO s)
    (gamemode s).

Definition set_vjoy_mode (v : VjoyMode.Mode) (s : VJoyState) : VJoyState :=
  mkState (vjoy_enabled s) (vjoy_visible s) v (gesture_recognizer s)
    (xres s) (yres s) (lastFingerPos s) (ignoredFingers s) (inputs s)
    (pressed s) (disable_draw s) (textbox_mode s) (ppads s) (states s)
    (taps s) (sGO s) (gamemode s).

Definition set_gesture_recognizer (v : bool) (s : VJoyState) : VJoyState :=
  mkState (vjoy_enabled s) (vjoy_visible s) (vjoy_mode s) v (xres s)
    (yres s) (lastFingerPos s) (ignoredFingers s) (inputs s) (pressed s)
    (disable_draw s) (textbox_mode s) (ppads s) (states s) (taps s) (sGO s)
    (gamemode s).

Definition set_lastFingerPos (v : gmap Z Point) (s : VJoyState) : VJoyState :=
  mkState (vjoy_enabled s) (vjoy_visible s) (vjoy_mode s)
    (gesture_recognizer s) (xres s) (yres s) v (ignoredFingers s) (inputs s)
    (pressed s) (disable_draw s) (textbox_mode s) (ppads s) (states s)
    (taps s) (sGO s) (gamemode s).

Definition set_ignoredFingers (v : gset Z) (s : VJoyState) : VJoyState :=
  mkState (vjoy_enabled s) (vjoy_visible s) (vjoy_mode s)
    (gesture_recognizer s) (xres s) (yres s) (lastFingerPos s) v (inputs s)
    (pressed s) (disable_draw s) (textbox_mode s) (ppads s) (states s)
    (taps s) (sGO s) (gamemode s).

Definition set_inputs (v : list bool) (s : VJoyState) : VJoyState :=
  mkState (vjoy_enabled s) (vjoy_visible s) (vjoy_mode s)
    (gesture_recognizer s) (xres s) (yres s) (lastFingerPos s)
    (ignoredFingers s) v (pressed s) (disable_draw s) (textbox_mode s)
    (ppads s) (states s) (taps s) (sGO s) (gamemode s).

Definition set_pressed (v : list bool) (s : VJoyState) : VJoyState :=
  mkState (vjoy_enabled s) (vjoy_visible s) (vjoy_mode s)
    (gesture_recognizer s) (xres s) (yres s) (lastFingerPos s)
    (ignoredFingers s) (inputs s) v (disable_draw s) (textbox_mode s)
    (ppads s) (states s) (taps s) (sGO s) (gamemode s).

Definition set_disable_draw (v : list bool) (s : VJoyState) : VJoyState :=
  mkState (vjoy_enabled s) (vjoy_visible s) (vjoy_mode s)
    (gesture_recognizer s) (xres s) (yres s) (lastFingerPos s)
    (ignoredFingers s) (inputs s) (pressed s) v (textbox_mode s) (ppads s)
    (states s) (taps s) (sGO s) (gamemode s).

Definition set_textbox_mode (v : bool) (s : VJoyState) : VJoyState :=
  mkState (vjoy_enabled s) (vjoy_visible s) (vjoy_mode s)
    (gesture_recognizer s) (xres s) (yres s) (lastFingerPos s)
    (ignoredFingers s) (inputs s) (pressed s) (disable_draw s) v (ppads s)
    (states s) (taps s) (sGO s) (gamemode s).

Definition set_ppads (v : bool) (s : VJoyState) : VJoyState :=
  mkState (vjoy_enabled s) (vjoy_visible s) (vjoy_mode s)
    (gesture_recognizer s) (xres s) (yres s) (lastFingerPos s)
    (ignoredFingers s) (inputs s) (pressed s) (disable_draw s)
    (textbox_mode s) v (states s) (taps s) (sGO s) (gamemode s).

Definition set_states (v : list state_t) (s : VJoyState) : VJoyState :=
  mkState (vjoy_enabled s) (vjoy_visible s) (vjoy_mode s)
    (gesture_recognizer s) (xres s) (yres s) (lastFingerPos s)
    (ignoredFingers s) (inputs s) (pressed s) (disable_draw s)
    (textbox_mode s) (ppads s) v (taps s) (sGO s) (gamemode s).

Definition set_taps (v : list Point) (s : VJoyState) : VJoyState :=
  mkState (vjoy_enabled s) (vjoy_visible s) (vjoy_mode s)
    (gesture_recognizer s) (xres s) (yres s) (lastFingerPos s)
    (ignoredFingers s) (inputs s) (pressed s) (disable_draw s)
    (textbox_mode s) (ppads s) (states s) v (sGO s) (gamemode s).

Definition set_sGO (v : bool) (s : VJoyState) : VJoyState :=
  mkState (vjoy_enabled s) (vjoy_visible s) (vjoy_mode s)
    (gesture_recognizer s) (xres s) (yres s) (lastFingerPos s)
    (ignoredFingers s) (inputs s) (pressed s) (disable_draw s)
    (textbox_mode s) (ppads s) (states s) (taps s) v (gamemode s).

Definition set_gamemode (v : GameModes) (s : VJoyState) : VJoyState :=
  mkState (vjoy_enabled s) (vjoy_visible s) (vjoy_mode s)
    (gesture_recognizer s) (xres s) (yres s) (lastFingerPos s)
    (ignoredFingers s) (inputs s) (pressed s) (disable_draw s)
    (textbox_mode s) (ppads s) (states s) (taps s) (sGO s) v.

Definition set_res (vx vy : F32.t) (s : VJoyState) : VJoyState :=
  mkState (vjoy_enabled s) (vjoy_visible s) (vjoy_mode s)
    (gesture_recognizer s) vx vy (lastFingerPos s) (ignoredFingers s)
    (inputs s) (pressed s) (disable_draw s) (textbox_mode s) (ppads s)
    (states s) (taps s) (sGO s) (gamemode s).

(** The state at program start: the initialisers of the globals. *)
Definition initial_state : VJoyState :=
  mkState true true VjoyMode.ETOUCH false (F32.of_Z (-1)) (F32.of_Z (-1))
    ∅ ∅ (replicate INPUT_COUNT false) (replicate Pad.seg_count false)
    (replicate NUM_GAMEMODES false) false false [] [] false GM_NONE.

(** Reading a flag array. *)
Definition flag (l : list bool) (i : nat) : bool := default false (l !! i).

(** Iteration over a [std::map] visits the entries by ascending key. *)
Definition key_le {V : Type} (a b : Z * V) : Prop := a.1 ≤ b.1.

#[global] Instance key_le_dec {V : Type} (a b : Z * V) : Decision (key_le a b) :=
  Z_le_dec a.1 b.1.

Definition fingers (s : VJoyState) : list (Z * Point) :=
  merge_sort key_le (map_to_list (lastFingerPos s)).

(** [RectI], a rectangle in pixels. *)
Record RectI : Type := mkRectI
  { RectI_x : Z; RectI_y : Z; RectI_w : Z; RectI_h : Z }.

(** The calls the rest of the game makes into the subsystem. *)
Inductive Call : Type :=
| CallInit
| CallDestroy
| CallInjectInputEvent (evt : SDL_Event)
| CallPreProcessInput
| CallProcessInput
| CallTap (x y : F32.t)
| CallGameModeChanged (newMode : GameModes)
| CallSpecScreenChanged (newScreen : SpecScreens) (enter : bool)
| CallSetGamemode (gm : GameModes).

Section VJoy.

(** [config.h] is not among the sources: whether it defines
    [CONFIG_USE_TAPS] is a parameter. *)
Variable CONFIG_USE_TAPS : bool.

(** Whether the build defines [NDEBUG], which turns [assert] into
    nothing. *)
Variable NDEBUG : bool.

(** The table [settings->tap]. *)
Variable settings_tap : Settings.Tap.Place -> Settings.Tap.Style.

(** [SDL_GetTouch(touchId)]: the resolution [(xres, yres)] of the touch
    device, converted to [float], or [None] for a null pointer. *)
Variable SDL_GetTouch : Z -> option (F32.t * F32.t).

(** [Graphics::SCREEN_WIDTH] and [Graphics::SCREEN_HEIGHT]. *)
Variables SCREEN_WIDTH SCREEN_HEIGHT : Z.

(** *** VjoyMode *)

(** [VjoyMode::setMode]. *)
Definition VjoyMode_setMode (newmode : VjoyMode.Mode) (s : VJoyState) : VJoyState :=
  if bool_decide (newmode = vjoy_mode s) then s
  else
    let s := set_vjoy_mode newmode s in
    if CONFIG_USE_TAPS then
      let s := set_gesture_recognizer (bool_decide (newmode ≠ VjoyMode.ETOUCH)) s in
      if bool_decide (newmode = VjoyMode.EGESTURE)
      then set_lastFingerPos ∅ s
      else s
    else s.

(** [VjoyMode::getModeFromSettings]; [assert(false)] terminates the
    program unless [NDEBUG] is defined, in which case [return EBOTH] is
    reached. *)
Definition VjoyMode_getModeFromSettings (place : Settings.Tap.Place)
  : outcome VjoyMode.Mode :=
  match settings_tap place with
  | Settings.Tap.ETAP => Done VjoyMode.EGESTURE
  | Settings.Tap.EPAD => Done VjoyMode.ETOUCH
  | Settings.Tap.EBOTH => Done VjoyMode.EBOTH
  | Settings.Tap.EUnrecognized _ =>
      if NDEBUG then Done VjoyMode.EBOTH else AssertFailed
  end.

(** *** Drawing *)

(** [Rect::fromRectI]. *)
Definition Rect_fromRectI (r : RectI) : Rect :=
  mkRect (F32.div (F32.of_Z (RectI_x r)) (F32.of_Z SCREEN_WIDTH))
         (F32.div (F32.of_Z (RectI_y r)) (F32.of_Z SCREEN_HEIGHT))
         (F32.div (F32.of_Z (RectI_w r)) (F32.of_Z SCREEN_WIDTH))
         (F32.div (F32.of_Z (RectI_h r)) (F32.of_Z SCREEN_HEIGHT)).

(** [Rect::to_screen_coord]. *)
Definition Rect_to_screen_coord (r : Rect) : Z * Z * Z * Z :=
  (F32.to_int (F32.mul (F32.of_Z SCREEN_WIDTH) (Rect_x r)),
   F32.to_int (F32.mul (F32.of_Z SCREEN_HEIGHT) (Rect_y r)),
   F32.to_int (F32.mul (F32.of_Z SCREEN_WIDTH) (F32.add (Rect_x r) (Rect_w r))),
   F32.to_int (F32.mul (F32.of_Z SCREEN_HEIGHT) (F32.add (Rect_y r) (Rect_h r)))).

Definition Rect_draw_fill_rect (r : Rect) (c : NXColor) : list DrawCmd :=
  let '(x1, y1, x2, y2) := Rect_to_screen_coord r in
  [FillRect x1 y1 x2 y2 c].

Definition Rect_draw_thin_rect (r : Rect) (c : NXColor) : list DrawCmd :=
  let '(x1, y1, x2, y2) := Rect_to_screen_coord r in
  [DrawLine x1 y1 x2 y1 c; DrawLine x1 y2 x2 y2 c;
   DrawLine x1 y1 x1 y2 c; DrawLine x2 y1 x2 y2 c].

(** A point in pixels, as [Pad::draw] hands it to [DrawLine]. *)
Definition screen_x (p : Point) : Z :=
  F32.to_int (F32.mul (Point_x p) (F32.of_Z SCREEN_WIDTH)).
Definition screen_y (p : Point) : Z :=
  F32.to_int (F32.mul (Point_y p) (F32.of_Z SCREEN_HEIGHT)).

(** [VKeys::Pad::draw]. *)
Definition Pad_draw (pressed : list bool) : list DrawCmd :=
  let a := Pad.seg_center in
  flat_map (fun i =>
    match Pad.segments !! i with
    | Some t =>
        let color := if flag pressed i then col_pressed else col_released in
        [DrawLine (screen_x a) (screen_y a) (screen_x (Tri_b t)) (screen_y (Tri_b t)) color;
         DrawLine (screen_x (Tri_b t)) (screen_y (Tri_b t))
                  (screen_x (Tri_c t)) (screen_y (Tri_c t)) color]
    | None => []
    end) (seq 0 Pad.seg_count).

(** [VKeys::draw]. *)
Definition VKeys_draw (inputs pressed : list bool) : list DrawCmd :=
  flat_map (fun i =>
    match VKeys.vkeys !! i with
    | Some vkey =>
        if F32.ltb (Rect_x vkey) F32.zero then []
        else Rect_draw_thin_rect vkey
               (if flag inputs i then col_pressed else col_released)
    | None => []
    end) (seq 0 INPUT_COUNT)
  ++ Pad_draw pressed.

(** *** The finger tracker *)

(** [VJoy::ignoreAllCurrentFingers]. *)
Definition ignoreAllCurrentFingers (s : VJoyState) : VJoyState :=
  set_lastFingerPos ∅
    (set_ignoredFingers (ignoredFingers s ∪ dom (lastFingerPos s)) s).

(** [VJoy::InjectInputEvent]. *)
Definition InjectInputEvent (evt : SDL_Event) (s : VJoyState) : VJoyState :=
  if negb (vjoy_enabled s) then s
  else if bool_decide (ev_type evt = SDL_FINGERUP) then
    let s := set_lastFingerPos (delete (tfinger_fingerId evt) (lastFingerPos s)) s in
    set_ignoredFingers (ignoredFingers s ∖ {[tfinger_fingerId evt]}) s
  else if bool_decide (vjoy_mode s = VjoyMode.EGESTURE) then s
  else
    let resolved :=
      if F32.ltb (xres s) F32.zero then
        match SDL_GetTouch (tfinger_touchId evt) with
        | Some (xr, yr) => Some (set_res xr yr s)
        | None => None
        end
      else Some s in
    match resolved with
    | None => s
    | Some s =>
        let p := mkPoint (F32.div (F32.of_Z (tfinger_x evt)) (xres s))
                         (F32.div (F32.of_Z (tfinger_y evt)) (yres s)) in
        if bool_decide (tfinger_fingerId evt ∈ ignoredFingers s) then s
        else set_lastFingerPos (<[tfinger_fingerId evt := p]> (lastFingerPos s)) s
    end.

(** *** The pads of the game modes *)

Definition DefaultControl_on_enter (s : VJoyState) : outcome VJoyState :=
  Done s.

Definition DefaultControl_update_buttons (p : Point) (s : VJoyState) : VJoyState :=
  let io := VKeys.update_buttons p (inputs s, pressed s) in
  set_pressed io.2 (set_inputs io.1 s).

Definition DefaultControl_draw (s : VJoyState) : list DrawCmd :=
  if bool_decide (VjoyMode.EGESTURE = vjoy_mode s) then []
  else VKeys_draw (inputs s) (pressed s).

Definition NormalModePad_update_buttons (p : Point) (s : VJoyState) : VJoyState :=
  if textbox_mode s then set_inputs (<[FIREKEY := true]> (inputs s)) s
  else DefaultControl_update_buttons p s.

(** [PausedModePad::update_buttons] and [OptionsModePad::update_buttons]:
    [ppads[GM_NORMAL]->update_buttons(p)]; once [ppads] is [pads],
    [ppads[GM_NORMAL]] is [normalModePad]. *)
Definition PausedModePad_update_buttons (p : Point) (s : VJoyState)
  : outcome VJoyState :=
  if ppads s then Done (NormalModePad_update_buttons p s) else NullDeref.

Definition OptionsModePad_update_buttons (p : Point) (s : VJoyState)
  : outcome VJoyState :=
  if ppads s then Done (NormalModePad_update_buttons p s) else NullDeref.

(** [PausedModePad::draw] and [OptionsModePad::draw]:
    [ppads[GM_NORMAL]->draw()]; [NormalModePad] inherits
    [DefaultControl::draw]. *)
Definition PausedModePad_draw (s : VJoyState) : outcome (list DrawCmd) :=
  if ppads s then Done (DefaultControl_draw s) else NullDeref.

Definition OptionsModePad_draw (s : VJoyState) : outcome (list DrawCmd) :=
  if ppads s then Done (DefaultControl_draw s) else NullDeref.

(** [pads[gm]->on_enter()]. *)
Definition pad_on_enter (gm : GameModes) (s : VJoyState) : outcome VJoyState :=
  match gm with
  | GM_NONE => Done (VjoyMode_setMode VjoyMode.ETOUCH s)
  | GM_NORMAL => Done (VjoyMode_setMode VjoyMode.ETOUCH s)
  | GM_INVENTORY =>
      m ← VjoyMode_getModeFromSettings Settings.Tap.EInventory;
      Done (VjoyMode_setMode m s)
  | GM_MAP_SYSTEM =>
      m ← VjoyMode_getModeFromSettings Settings.Tap.EMapSystem;
      Done (VjoyMode_setMode m s)
  | GM_ISLAND => DefaultControl_on_enter s
  | GM_CREDITS => DefaultControl_on_enter s
  | GM_INTRO =>
      m ← VjoyMode_getModeFromSettings Settings.Tap.EMovies;
      Done (VjoyMode_setMode m s)
  | GM_TITLE =>
      m ← VjoyMode_getModeFromSettings Settings.Tap.ETitle;
      Done (VjoyMode_setMode m s)
  | GP_PAUSED =>
      m ← VjoyMode_getModeFromSettings Settings.Tap.EPause;
      Done (VjoyMode_setMode m s)
  | GP_OPTIONS =>
      m ← VjoyMode_getModeFromSettings Settings.Tap.EOptions;
      Done (VjoyMode_setMode m s)
  end.

(** [pads[gm]->update_buttons(p)]. *)
Definition pad_update_buttons (gm : GameModes) (p : Point) (s : VJoyState)
  : outcome VJoyState :=
  match gm with
  | GM_NORMAL => Done (NormalModePad_update_buttons p s)
  | GP_PAUSED => PausedModePad_update_buttons p s
  | GP_OPTIONS => OptionsModePad_update_buttons p s
  | _ => Done (DefaultControl_update_buttons p s)
  end.

(** [pads[gm]->draw()]. *)
Definition pad_draw (gm : GameModes) (s : VJoyState) : outcome (list DrawCmd) :=
  match gm with
  | GP_PAUSED => PausedModePad_draw s
  | GP_OPTIONS => OptionsModePad_draw s
  | _ => Done (DefaultControl_draw s)
  end.

(** *** VJoy::ModeAware *)

Definition ModeAware_dispatch (p : Point) (s : VJoyState) : outcome VJoyState :=
  pad_update_buttons (gamemode s) p s.

Definition ModeAware_draw (s : VJoyState) : outcome (list DrawCmd) :=
  if negb (flag (disable_draw s) (gm_index (gamemode s)))
  then pad_draw (gamemode s) s
  else Done [].

(** [GestureObserver::tap], [wasTap], [flushEvents] and the two
    [ModeAware::wasTap]. *)
Definition GestureObserver_tap (x y : F32.t) (s : VJoyState) : VJoyState :=
  set_taps (taps s ++ [mkPoint x y]) s.

Definition GestureObserver_wasTap_in (rect : Rect) (s : VJoyState) : bool :=
  existsb (Rect_point_in rect) (taps s).

Definition GestureObserver_wasTap (s : VJoyState) : bool :=
  negb (bool_decide (taps s = [])).

Definition ModeAware_wasTap_in (rect : RectI) (s : VJoyState) : bool :=
  if bool_decide (VjoyMode.ETOUCH = vjoy_mode s) then false
  else GestureObserver_wasTap_in (Rect_fromRectI rect) s.

Definition ModeAware_wasTap (s : VJoyState) : bool :=
  if bool_decide (VjoyMode.ETOUCH = vjoy_mode s) then false
  else GestureObserver_wasTap s.

(** [tap] of [touch_control.cpp], the entry point of the platform's tap
    recognizer: [if (sGO) sGO->tap(x, y)]. *)
Definition tap (x y : F32.t) (s : VJoyState) : VJoyState :=
  if sGO s then GestureObserver_tap x y s else s.

(** [ModeAware::gameModeChanged]. *)
Definition gameModeChanged (newMode : GameModes) (s : VJoyState)
  : outcome VJoyState :=
  let s := set_ppads true s in
  s ← pad_on_enter newMode s;
  Done (ignoreAllCurrentFingers s).

(** [state_t::push] and [state_t::pop]. *)
Definition state_push (s : VJoyState) : state_t :=
  mkFrame (vjoy_mode s) (gamemode s)
          (flag (disable_draw s) (gm_index (gamemode s)))
          (textbox_mode s).

Definition state_pop (f : state_t) (s : VJoyState) : VJoyState :=
  let s := VjoyMode_setMode (st_mode f) s in
  let s := set_disable_draw (<[gm_index (st_gm f) := st_gm_draw f]> (disable_draw s)) s in
  set_textbox_mode (st_normal_textbox_mode f) s.

(** [ModeAware::specScreenChanged]. *)
Definition specScreenChanged (newScreen : SpecScreens) (enter : bool)
  (s : VJoyState) : outcome VJoyState :=
  let s := ignoreAllCurrentFingers s in
  if enter then
    let s := set_states (state_push s :: states s) s in
    match newScreen with
    | ETextBox =>
        m ← VjoyMode_getModeFromSettings Settings.Tap.EIngameDialog;
        let s := VjoyMode_setMode m s in
        Done (set_textbox_mode (bool_decide (vjoy_mode s ≠ VjoyMode.ETOUCH)) s)
    | ESaveLoad =>
        m ← VjoyMode_getModeFromSettings Settings.Tap.ESaveLoad;
        let s := VjoyMode_setMode m s in
        Done (set_textbox_mode false s)
    | EYesNo =>
        m ← VjoyMode_getModeFromSettings Settings.Tap.EIngameDialog;
        let s := VjoyMode_setMode m s in
        Done (set_textbox_mode false s)
    | EStageSelect1 =>
        m ← VjoyMode_getModeFromSettings Settings.Tap.EIngameDialog;
        let s := VjoyMode_setMode m s in
        Done (set_textbox_mode false s)
    | EStageSelect2 =>
        m ← VjoyMode_getModeFromSettings Settings.Tap.EIngameDialog;
        let s := VjoyMode_setMode m s in
        Done (set_textbox_mode (bool_decide (vjoy_mode s ≠ VjoyMode.ETOUCH)) s)
    end
  else
    match states s with
    | [] => Done s
    | f :: rest => Done (set_states rest (state_pop f s))
    end.

(** *** The pipeline *)

(** [VJoy::Init], with [registerGetureObserver] of [touch_control.cpp]. *)
Definition Init (s : VJoyState) : VJoyState :=
  set_sGO true (set_vjoy_enabled true s).

Definition Destroy (s : VJoyState) : VJoyState := set_vjoy_enabled false s.

Definition PreProcessInput (s : VJoyState) : VJoyState :=
  if negb (vjoy_enabled s) then s else set_taps [] s.

(** The loop of [ProcessInput]. *)
Fixpoint dispatch_all (ps : list (Z * Point)) (s : VJoyState) : outcome VJoyState :=
  match ps with
  | [] => Done s
  | kv :: ps => s ← ModeAware_dispatch kv.2 s; dispatch_all ps s
  end.

(** [VJoy::ProcessInput]. *)
Definition ProcessInput (s : VJoyState) : outcome VJoyState :=
  if negb (vjoy_enabled s) then Done s
  else
    let s := set_inputs (replicate INPUT_COUNT false) s in
    let s := set_pressed (replicate Pad.seg_count false) s in
    dispatch_all (fingers s) s.

(** [VJoy::DrawAll]. *)
Definition DrawAll (s : VJoyState) : outcome (list DrawCmd) :=
  if negb (vjoy_enabled s && vjoy_visible s) then Done []
  else
    d ← ModeAware_draw s;
    Done (d ++ flat_map (fun kv =>
            Rect_draw_fill_rect
              (Rect_centred kv.2 (F32.lit 4 100) (F32.lit 4 100))
              (mkColor 0xff 0xcf 0x33)) (fingers s)).

(** One call, and a sequence of calls.  [CallSetGamemode] is the game
    changing what [getGamemode()] returns. *)
Definition step (c : Call) (s : VJoyState) : outcome VJoyState :=
  match c with
  | CallInit => Done (Init s)
  | CallDestroy => Done (Destroy s)
  | CallInjectInputEvent evt => Done (InjectInputEvent evt s)
  | CallPreProcessInput => Done (PreProcessInput s)
  | CallProcessInput => ProcessInput s
  | CallTap x y => Done (tap x y s)
  | CallGameModeChanged newMode => gameModeChanged newMode s
  | CallSpecScreenChanged newScreen enter => specScreenChanged newScreen enter s
  | CallSetGamemode gm => Done (set_gamemode gm s)
  end.

Fixpoint run (cs : list Call) (s : VJoyState) : outcome VJoyState :=
  match cs with
  | [] => Done s
  | c :: cs => s ← step c s; run cs s
  end.

End VJoy.

(** ** Notions used by the properties *)



(** The settings context a pad looks up in [on_enter], for the pads that
    look one up. *)
Definition pad_context (gm : GameModes) : option Settings.Tap.Place :=
  match gm with
  | GM_INVENTORY => Some Settings.Tap.EInventory
  | GM_MAP_SYSTEM => Some Settings.Tap.EMapSystem
  | GM_INTRO => Some Settings.Tap.EMovies
  | GM_TITLE => Some Settings.Tap.ETitle
  | GP_PAUSED => Some Settings.Tap.EPause
  | GP_OPTIONS => Some Settings.Tap.EOptions
  | GM_NONE | GM_NORMAL | GM_ISLAND | GM_CREDITS => None
  end.

(** The lookup of a stored setting returns to its caller: the setting
    is a recognized one, or assertions are compiled out. *)
Definition lookup_returns (NDEBUG : bool) (v : Settings.Tap.Style) : bool :=
  NDEBUG || Settings.Tap.recognized v.

(** The settings context of a modal screen. *)
Definition screen_context (scr : SpecScreens) : Settings.Tap.Place :=
  match scr with
  | ESaveLoad => Settings.Tap.ESaveLoad
  | ETextBox | EYesNo | EStageSelect1 | EStageSelect2 => Settings.Tap.EIngameDialog
  end.

(** A finger-up event for [id]. *)
Definition is_finger_up (id : Z) (c : Call) : bool :=
  match c with
  | CallInjectInputEvent evt =>
      bool_decide (ev_type evt = SDL_FINGERUP) && bool_decide (tfinger_fingerId evt = id)
  | _ => false
  end.

(** No finger of the ignore set is tracked. *)
Definition ignored_untracked (s : VJoyState) : Prop :=
  ∀ id, id ∈ ignoredFingers s → lastFingerPos s !! id = None.

(** A call that inserts no finger into the registry and removes none
    from the ignore set; a finger it adds to the ignore set is not
    tracked afterwards. *)
Definition quiet (s s' : VJoyState) : Prop :=
  (∀ id, id ∈ ignoredFingers s → id ∈ ignoredFingers s') ∧
  (∀ id, lastFingerPos s !! id = None → lastFingerPos s' !! id = None) ∧
  (∀ id, id ∈ ignoredFingers s' →
     id ∈ ignoredFingers s ∨ lastFingerPos s' !! id = None).

(** No call of the sequence is a finger-up event for [id]. *)
Definition no_finger_up (id : Z) (cs : list Call) : bool :=
  forallb (fun c => negb (is_finger_up id c)) cs.

(** The flags one finger at [p] sets when it is dispatched alone on
    zeroed arrays, and the union of two flag arrays. *)
Definition alone (p : Point) (s : VJoyState) : outcome (list bool) :=
  s' ← ModeAware_dispatch p
         (set_pressed (replicate Pad.seg_count false)
            (set_inputs (replicate INPUT_COUNT false) s));
  Done (inputs s').

Definition flags_union (a b : list bool) : list bool := zip_with orb a b.



(** Two fingers on the wheel during normal gameplay: finger 1 comes
    down on its left at (0.75, 0.82), then finger 2 on its right at
    (0.89, 0.82), on a touch device of resolution 100 x 100. *)
Definition wheel_left : Point := mkPoint (F32.lit 75 100) (F32.lit 82 100).
Definition wheel_right : Point := mkPoint (F32.lit 89 100) (F32.lit 82 100).

Definition touch_100 (touchId : Z) : option (F32.t * F32.t) :=
  Some (F32.of_Z 100, F32.of_Z 100).

Definition two_fingers_on_wheel : list Call :=
  [ CallInit;
    CallSetGamemode GM_NORMAL;
    CallGameModeChanged GM_NORMAL;
    CallInjectInputEvent (mkEvent SDL_FINGERDOWN 1 0 75 82);
    CallInjectInputEvent (mkEvent SDL_FINGERDOWN 2 0 89 82) ].

(** One finger held on the jump key. *)
Definition one_finger_down : VJoyState :=
  set_lastFingerPos {[1 := mkPoint (F32.lit 5 100) (F32.lit 85 100)]} initial_state.

(** ** Properties *)

Section Properties.

Variable CONFIG_USE_TAPS : bool.
Variable NDEBUG : bool.
Variable settings_tap : Settings.Tap.Place -> Settings.Tap.Style.
Variable SDL_GetTouch : Z -> option (F32.t * F32.t).

Local Abbreviation setMode := (VjoyMode_setMode CONFIG_USE_TAPS).
Local Abbreviation getModeFromSettings := (VjoyMode_getModeFromSettings NDEBUG settings_tap).

(** *** Assignments and projections *)

Lemma setMode_mode (n : VjoyMode.Mode) (s : VJoyState) :
  vjoy_mode (setMode n s) = n.
Proof.
  unfold VjoyMode_setMode. case_bool_decide as Hm; [done|].
  destruct CONFIG_USE_TAPS; [|done]. by case_bool_decide.
Qed.

(** [setMode] touches the mode, the recogniser and the registry only. *)
Lemma setMode_frame (n : VjoyMode.Mode) (s : VJoyState) :
  let s' := setMode n s in
  vjoy_enabled s' = vjoy_enabled s ∧ vjoy_visible s' = vjoy_visible s ∧
  xres s' = xres s ∧ yres s' = yres s ∧
  ignoredFingers s' = ignoredFingers s ∧
  inputs s' = inputs s ∧ pressed s' = pressed s ∧
  disable_draw s' = disable_draw s ∧ textbox_mode s' = textbox_mode s ∧
  ppads s' = ppads s ∧ states s' = states s ∧ taps s' = taps s ∧
  sGO s' = sGO s ∧ gamemode s' = gamemode s.
Proof.
  unfold VjoyMode_setMode. case_bool_decide; [done|].
  destruct CONFIG_USE_TAPS; [|done]. by case_bool_decide.
Qed.

(** [setMode] never adds a finger to the registry. *)
Lemma setMode_registry (n : VjoyMode.Mode) (s : VJoyState) (id : Z) :
  lastFingerPos s !! id = None → lastFingerPos (setMode n s) !! id = None.
Proof.
  intros H. unfold VjoyMode_setMode. case_bool_decide; [done|].
  destruct CONFIG_USE_TAPS; [|done]. by case_bool_decide.
Qed.

Lemma fingers_empty (s : VJoyState) : lastFingerPos s = ∅ → fingers s = [].
Proof. intros H. unfold fingers. rewrite H, map_to_list_empty. done. Qed.

Lemma ignoreAllCurrentFingers_idle (s : VJoyState) :
  lastFingerPos s = ∅ → ignoreAllCurrentFingers s = s.
Proof.
  intros H. unfold ignoreAllCurrentFingers. destruct s; simpl in *. subst.
  unfold set_lastFingerPos, set_ignoredFingers; simpl.
  by rewrite dom_empty_L, union_empty_r_L.
Qed.

(** *** C6 *)

(** C6: for a context whose tap setting is ETAP, EPAD or EBOTH the
    touch-mode lookup returns gesture-only, touch-only or both
    respectively; for any other setting it ends in the failed assertion
    (assertions being compiled in), and it returns a mode to its caller
    only for a recognized setting. *)
Theorem getModeFromSettings_spec (place : Settings.Tap.Place) :
  (settings_tap place = Settings.Tap.ETAP →
     getModeFromSettings place = Done VjoyMode.EGESTURE) ∧
  (settings_tap place = Settings.Tap.EPAD →
     getModeFromSettings place = Done VjoyMode.ETOUCH) ∧
  (settings_tap place = Settings.Tap.EBOTH →
     getModeFromSettings place = Done VjoyMode.EBOTH) ∧
  (NDEBUG = false →
     (Settings.Tap.recognized (settings_tap place) = false →
        getModeFromSettings place = AssertFailed) ∧
     (∀ m, getModeFromSettings place = Done m →
        Settings.Tap.recognized (settings_tap place) = true)).
Proof.
  unfold VjoyMode_getModeFromSettings.
  destruct (settings_tap place); simpl;
    (split; [done|]); (split; [done|]); (split; [done|]);
    intros ->; split; done.
Qed.

(** *** C10 *)

(** C10: a finger-up event injected while the system is enabled removes
    its finger from the finger registry and from the ignore set, whatever
    the touch mode and whether or not the device resolution is known;
    the other fingers and the touch mode are left as they were. *)
Theorem InjectInputEvent_finger_up (evt : SDL_Event) (s : VJoyState) :
  vjoy_enabled s = true →
  ev_type evt = SDL_FINGERUP →
  let s' := InjectInputEvent SDL_GetTouch evt s in
  lastFingerPos s' !! tfinger_fingerId evt = None ∧
  (tfinger_fingerId evt ∉ ignoredFingers s') ∧
  (∀ id, id ≠ tfinger_fingerId evt →
     (lastFingerPos s' !! id = lastFingerPos s !! id) ∧
     (id ∈ ignoredFingers s' ↔ id ∈ ignoredFingers s)) ∧
  vjoy_mode s' = vjoy_mode s ∧ xres s' = xres s ∧ yres s' = yres s.
Proof.
  intros Hen Hup. unfold InjectInputEvent. rewrite Hen. simpl.
  rewrite bool_decide_eq_true_2 by done. simpl.
  split; [apply lookup_delete_eq|].
  split.
  { intros [_ Hn]%elem_of_difference. apply Hn. by apply elem_of_singleton. }
  split; [|done].
  intros id Hid. split; [by apply lookup_delete_ne|].
  rewrite elem_of_difference, elem_of_singleton. tauto.
Qed.

(** *** C7 *)

(** C7: in a build with CONFIG_USE_TAPS, [setMode n] leaves the state
    alone when [n] is the current mode; otherwise the current mode
    becomes [n], the gesture recognizer is enabled exactly when [n] is
    not touch-only, and the finger registry is emptied exactly when [n]
    is gesture-only (it is kept otherwise); after a change to
    gesture-only the next [ProcessInput] of the enabled system has no
    finger to dispatch and returns with every button flag false. *)
Theorem setMode_spec (n : VjoyMode.Mode) (s : VJoyState) :
  let s' := VjoyMode_setMode true n s in
  (n = vjoy_mode s → s' = s) ∧
  (n ≠ vjoy_mode s →
     vjoy_mode s' = n ∧
     gesture_recognizer s' = bool_decide (n ≠ VjoyMode.ETOUCH) ∧
     (n ≠ VjoyMode.EGESTURE → lastFingerPos s' = lastFingerPos s) ∧
     (n = VjoyMode.EGESTURE →
        lastFingerPos s' = ∅ ∧ fingers s' = [] ∧
        (vjoy_enabled s = true →
           ∃ s'', ProcessInput s' = Done s'' ∧
                  inputs s'' = replicate INPUT_COUNT false ∧
                  pressed s'' = replicate Pad.seg_count false))).
Proof.
  simpl. split.
  - intros ->. unfold VjoyMode_setMode. by rewrite bool_decide_eq_true_2.
  - intros Hne. unfold VjoyMode_setMode.
    rewrite bool_decide_eq_false_2 by done.
    case_bool_decide as Hg; simpl.
    + split; [done|]. split; [done|]. split; [done|].
      intros _. split; [done|]. split; [by apply fingers_empty|].
      intros Hen. unfold ProcessInput. simpl. rewrite Hen. simpl.
      exists (set_pressed (replicate Pad.seg_count false)
                (set_inputs (replicate INPUT_COUNT false)
                   (set_lastFingerPos ∅
                      (set_gesture_recognizer (bool_decide (n ≠ VjoyMode.ETOUCH))
                         (set_vjoy_mode n s))))).
      split; [|done].
      by rewrite fingers_empty.
    + split; [done|]. split; [done|]. split; [done|]. done.
Qed.

(** *** C4 *)

(** C4, as the code has it: the island and credits pads keep the empty
    [on_enter] of [DefaultControl], so entering them returns with the
    whole state, the touch mode included, as it was; for a pad that has
    a settings context (inventory, map system, intro, title, paused,
    options) [on_enter] sets the mode that the lookup for that context
    returns, and ends in the failed assertion when the lookup does. *)
Theorem pad_on_enter_spec (s : VJoyState) :
  pad_on_enter CONFIG_USE_TAPS NDEBUG settings_tap GM_ISLAND s = Done s ∧
  pad_on_enter CONFIG_USE_TAPS NDEBUG settings_tap GM_CREDITS s = Done s ∧
  (∀ gm place, pad_context gm = Some place →
     pad_on_enter CONFIG_USE_TAPS NDEBUG settings_tap gm s
       = (m ← getModeFromSettings place; Done (setMode m s)) ∧
     ∀ m, getModeFromSettings place = Done m →
       ∃ s', pad_on_enter CONFIG_USE_TAPS NDEBUG settings_tap gm s = Done s' ∧
             vjoy_mode s' = m).
Proof.
  split; [done|]. split; [done|].
  intros gm place Hctx.
  destruct gm; simpl in Hctx; try discriminate;
    injection Hctx as <-; (split; [done|]);
    intros m Hm; simpl; rewrite Hm; simpl;
    (eexists; split; [reflexivity|apply setMode_mode]).
Qed.

(** *** C5 *)

(** C5, as the code has it: leaving a screen while the context stack is
    empty does what [ignoreAllCurrentFingers] does and nothing else: the
    tracked fingers move to the ignore set and the registry is emptied,
    while the touch mode, every pad's [disable_draw], the normal pad's
    [textbox_mode], the stack and all other state stay as they were; when
    no finger is tracked the state is unchanged altogether. *)
Theorem specScreenChanged_leave_empty (newScreen : SpecScreens) (s : VJoyState) :
  states s = [] →
  ∃ s', specScreenChanged CONFIG_USE_TAPS NDEBUG settings_tap newScreen false s = Done s' ∧
    s' = ignoreAllCurrentFingers s ∧
    lastFingerPos s' = ∅ ∧
    ignoredFingers s' = ignoredFingers s ∪ dom (lastFingerPos s) ∧
    vjoy_mode s' = vjoy_mode s ∧ disable_draw s' = disable_draw s ∧
    textbox_mode s' = textbox_mode s ∧ states s' = [] ∧
    vjoy_enabled s' = vjoy_enabled s ∧ vjoy_visible s' = vjoy_visible s ∧
    gesture_recognizer s' = gesture_recognizer s ∧
    xres s' = xres s ∧ yres s' = yres s ∧
    inputs s' = inputs s ∧ pressed s' = pressed s ∧ ppads s' = ppads s ∧
    taps s' = taps s ∧ sGO s' = sGO s ∧ gamemode s' = gamemode s ∧
    (lastFingerPos s = ∅ → s' = s).
Proof.
  intros Hst. exists (ignoreAllCurrentFingers s).
  split.
  { unfold specScreenChanged. simpl. by rewrite Hst. }
  repeat split; try done.
  apply ignoreAllCurrentFingers_idle.
Qed.

(** *** C3 *)

Lemma list_insert_flag (l : list bool) (i : nat) : <[i := flag l i]> l = l.
Proof.
  unfold flag. destruct (l !! i) as [b|] eqn:Hl; simpl.
  - by apply list_insert_id.
  - apply list_insert_ge. by apply lookup_ge_None.
Qed.

(** What entering a screen leaves behind: the frame of the state found,
    on top of the stack, and a mode and text-box flag of the screen. *)
Lemma specScreenChanged_enter (newScreen : SpecScreens) (s : VJoyState) :
  lookup_returns NDEBUG (settings_tap (screen_context newScreen)) = true →
  ∃ m b, specScreenChanged CONFIG_USE_TAPS NDEBUG settings_tap newScreen true s
    = Done (set_textbox_mode b (setMode m
              (set_states (state_push (ignoreAllCurrentFingers s)
                             :: states (ignoreAllCurrentFingers s))
                          (ignoreAllCurrentFingers s)))).
Proof.
  intros Hrec. unfold specScreenChanged, VjoyMode_getModeFromSettings.
  unfold lookup_returns in Hrec.
  destruct newScreen; simpl in Hrec |- *;
    (destruct (settings_tap _);
       [..|rewrite orb_false_r in Hrec; rewrite Hrec]); simpl;
    eexists _, _; reflexivity.
Qed.

(** What leaving a screen does with the frame on top of the stack. *)
Lemma specScreenChanged_leave (newScreen : SpecScreens) (s : VJoyState)
    (f : state_t) (rest : list state_t) :
  states s = f :: rest →
  ∃ s', specScreenChanged CONFIG_USE_TAPS NDEBUG settings_tap newScreen false s = Done s' ∧
    vjoy_mode s' = st_mode f ∧
    disable_draw s' = <[gm_index (st_gm f) := st_gm_draw f]> (disable_draw s) ∧
    textbox_mode s' = st_normal_textbox_mode f ∧
    states s' = rest.
Proof.
  intros Hst. unfold specScreenChanged. simpl. rewrite Hst.
  eexists. split; [reflexivity|]. unfold state_pop. simpl.
  destruct (setMode_frame (st_mode f) (ignoreAllCurrentFingers s))
    as (_ & _ & _ & _ & _ & _ & _ & Hd & _).
  rewrite setMode_mode, Hd. done.
Qed.

(** C3: from every state and for every modal screen whose settings
    lookup returns (the context holds a recognized value, or assertions
    are compiled out), the notification with enter=true
    followed at once by the notification with enter=false returns, and
    the touch mode, the [disable_draw] flag of the current game mode (of
    every pad, in fact), the normal pad's [textbox_mode] and the context
    stack are what they were before the first call. *)
Theorem specScreenChanged_round_trip (newScreen leftScreen : SpecScreens)
    (s : VJoyState) :
  lookup_returns NDEBUG (settings_tap (screen_context newScreen)) = true →
  ∃ s1 s2,
    specScreenChanged CONFIG_USE_TAPS NDEBUG settings_tap newScreen true s = Done s1 ∧
    specScreenChanged CONFIG_USE_TAPS NDEBUG settings_tap leftScreen false s1 = Done s2 ∧
    vjoy_mode s2 = vjoy_mode s ∧
    flag (disable_draw s2) (gm_index (gamemode s))
      = flag (disable_draw s) (gm_index (gamemode s)) ∧
    textbox_mode s2 = textbox_mode s ∧
    disable_draw s2 = disable_draw s ∧
    states s2 = states s.
Proof.
  intros Hrec.
  destruct (specScreenChanged_enter newScreen s Hrec) as (m & b & Henter).
  set (s0 := ignoreAllCurrentFingers s) in *.
  set (s1 := set_textbox_mode b _) in Henter.
  assert (Hst : states s1 = state_push s0 :: states s0).
  { subst s1. cbn [states set_textbox_mode].
    by destruct (setMode_frame m (set_states (state_push s0 :: states s0) s0))
      as (_ & _ & _ & _ & _ & _ & _ & _ & _ & _ & -> & _). }
  assert (Hdd : disable_draw s1 = disable_draw s).
  { subst s1. cbn [disable_draw set_textbox_mode].
    by destruct (setMode_frame m (set_states (state_push s0 :: states s0) s0))
      as (_ & _ & _ & _ & _ & _ & _ & -> & _). }
  destruct (specScreenChanged_leave leftScreen s1 _ _ Hst)
    as (s2 & Hleave & Hmode & Hdraw & Htext & Hstates).
  exists s1, s2. split; [done|]. split; [done|].
  assert (Hdraw' : disable_draw s2 = disable_draw s).
  { rewrite Hdraw, Hdd. apply list_insert_flag. }
  split; [done|]. split; [by rewrite Hdraw'|]. done.
Qed.

(** *** C9 *)

(** C9: once [ppads] has been set (by any game mode change), for every
    touch point and every state, text-box mode included, the paused and
    the options pad update the flags and draw exactly as the normal pad
    does in that state; with [textbox_mode] set their update asserts the
    fire input and does nothing else. *)
Theorem paused_options_forward (p : Point) (s : VJoyState)
    (SCREEN_WIDTH SCREEN_HEIGHT : Z) :
  ppads s = true →
  pad_update_buttons GP_PAUSED p s = pad_update_buttons GM_NORMAL p s ∧
  pad_update_buttons GP_OPTIONS p s = pad_update_buttons GM_NORMAL p s ∧
  pad_draw SCREEN_WIDTH SCREEN_HEIGHT GP_PAUSED s
    = pad_draw SCREEN_WIDTH SCREEN_HEIGHT GM_NORMAL s ∧
  pad_draw SCREEN_WIDTH SCREEN_HEIGHT GP_OPTIONS s
    = pad_draw SCREEN_WIDTH SCREEN_HEIGHT GM_NORMAL s ∧
  (textbox_mode s = true →
     pad_update_buttons GM_NORMAL p s
       = Done (set_inputs (<[FIREKEY := true]> (inputs s)) s) ∧
     pad_update_buttons GP_PAUSED p s
       = Done (set_inputs (<[FIREKEY := true]> (inputs s)) s) ∧
     pad_update_buttons GP_OPTIONS p s
       = Done (set_inputs (<[FIREKEY := true]> (inputs s)) s)).
Proof.
  intros Hpp. simpl.
  unfold PausedModePad_update_buttons, OptionsModePad_update_buttons,
    PausedModePad_draw, OptionsModePad_draw.
  rewrite Hpp. repeat (split; [reflexivity|]).
  intros Htb. unfold NormalModePad_update_buttons. by rewrite Htb.
Qed.

(** *** C8 *)

Lemma quiet_refl (s : VJoyState) : quiet s s.
Proof. unfold quiet. auto. Qed.

Lemma quiet_trans (s1 s2 s3 : VJoyState) : quiet s1 s2 → quiet s2 s3 → quiet s1 s3.
Proof.
  intros (Ha & Hb & Hc) (Ha' & Hb' & Hc'). split; [auto|]. split; [auto|].
  intros id Hid. destruct (Hc' id Hid) as [H2|]; [|auto].
  destruct (Hc id H2); auto.
Qed.

Lemma quiet_fields (s s' : VJoyState) :
  ignoredFingers s' = ignoredFingers s →
  lastFingerPos s' = lastFingerPos s →
  quiet s s'.
Proof. intros Hi Hr. unfold quiet. rewrite Hi, Hr. auto. Qed.

Lemma setMode_quiet (n : VjoyMode.Mode) (s : VJoyState) : quiet s (setMode n s).
Proof.
  destruct (setMode_frame n s) as (_ & _ & _ & _ & Hi & _).
  split; [by rewrite Hi|]. split; [apply setMode_registry|].
  intros id. rewrite Hi. auto.
Qed.

Lemma ignoreAllCurrentFingers_quiet (s : VJoyState) :
  quiet s (ignoreAllCurrentFingers s).
Proof.
  unfold quiet, ignoreAllCurrentFingers. simpl.
  split; [intros id Hid; apply elem_of_union; auto|].
  split; intros; [done|]. right. apply lookup_empty.
Qed.

Lemma pad_update_buttons_quiet (gm : GameModes) (p : Point) (s s' : VJoyState) :
  pad_update_buttons gm p s = Done s' → quiet s s'.
Proof.
  unfold pad_update_buttons, PausedModePad_update_buttons,
    OptionsModePad_update_buttons, NormalModePad_update_buttons.
  intros H.
  destruct gm, (ppads s), (textbox_mode s); try discriminate H;
    injection H as <-; by apply quiet_fields.
Qed.

Lemma dispatch_all_quiet (ps : list (Z * Point)) (s s' : VJoyState) :
  dispatch_all ps s = Done s' → quiet s s'.
Proof.
  revert s. induction ps as [|kv ps IH]; intros s H; simpl in H.
  - injection H as <-. apply quiet_refl.
  - unfold ModeAware_dispatch in H.
    destruct (pad_update_buttons (gamemode s) kv.2 s) as [s1| |] eqn:Hd;
      try discriminate H.
    eapply quiet_trans; [by eapply pad_update_buttons_quiet|by apply IH].
Qed.

Lemma ProcessInput_quiet (s s' : VJoyState) : ProcessInput s = Done s' → quiet s s'.
Proof.
  unfold ProcessInput. destruct (vjoy_enabled s); simpl; intros H.
  - apply dispatch_all_quiet in H.
    eapply quiet_trans; [|exact H]. by apply quiet_fields.
  - injection H as <-. apply quiet_refl.
Qed.

Lemma pad_on_enter_quiet (gm : GameModes) (s s' : VJoyState) :
  pad_on_enter CONFIG_USE_TAPS NDEBUG settings_tap gm s = Done s' → quiet s s'.
Proof.
  unfold pad_on_enter, DefaultControl_on_enter. intros H.
  destruct gm; simpl in H;
    try (injection H as <-; first [apply setMode_quiet|apply quiet_refl]);
    (destruct (getModeFromSettings _) as [m| |]; try discriminate H;
     injection H as <-; apply setMode_quiet).
Qed.

Lemma gameModeChanged_quiet (gm : GameModes) (s s' : VJoyState) :
  gameModeChanged CONFIG_USE_TAPS NDEBUG settings_tap gm s = Done s' → quiet s s'.
Proof.
  unfold gameModeChanged. intros H.
  destruct (pad_on_enter _ _ _ gm (set_ppads true s)) as [s1| |] eqn:He;
    try discriminate H.
  injection H as <-. apply pad_on_enter_quiet in He.
  eapply quiet_trans; [|apply ignoreAllCurrentFingers_quiet].
  eapply quiet_trans; [|exact He]. by apply quiet_fields.
Qed.

Lemma specScreenChanged_quiet (scr : SpecScreens) (enter : bool) (s s' : VJoyState) :
  specScreenChanged CONFIG_USE_TAPS NDEBUG settings_tap scr enter s = Done s' → quiet s s'.
Proof.
  unfold specScreenChanged. intros H.
  eapply quiet_trans; [apply ignoreAllCurrentFingers_quiet|].
  set (s0 := ignoreAllCurrentFingers s) in *. clearbody s0.
  destruct enter.
  - set (s1 := set_states _ s0) in H.
    assert (Hq : quiet s0 s1) by by apply quiet_fields.
    eapply quiet_trans; [exact Hq|]. clearbody s1.
    destruct scr; simpl in H;
      (destruct (getModeFromSettings _) as [m| |]; try discriminate H;
       injection H as <-;
       eapply quiet_trans; [apply (setMode_quiet m)|by apply quiet_fields]).
  - destruct (states s0) as [|f rest]; injection H as <-; [apply quiet_refl|].
    unfold state_pop.
    eapply quiet_trans; [apply (setMode_quiet (st_mode f))|by apply quiet_fields].
Qed.

Lemma step_quiet (c : Call) (s s' : VJoyState) :
  (∀ evt, c ≠ CallInjectInputEvent evt) →
  step CONFIG_USE_TAPS NDEBUG settings_tap SDL_GetTouch c s = Done s' →
  quiet s s'.
Proof.
  intros Hc H. destruct c; simpl in H.
  - injection H as <-. by apply quiet_fields.
  - injection H as <-. by apply quiet_fields.
  - by destruct (Hc evt).
  - injection H as <-. unfold PreProcessInput.
    destruct (vjoy_enabled s); by apply quiet_fields.
  - by apply ProcessInput_quiet.
  - injection H as <-. unfold tap. destruct (sGO s); by apply quiet_fields.
  - by eapply gameModeChanged_quiet.
  - by eapply specScreenChanged_quiet.
  - injection H as <-. by apply quiet_fields.
Qed.

Lemma Call_inject_or_not (c : Call) :
  (∃ evt, c = CallInjectInputEvent evt) ∨ (∀ evt, c ≠ CallInjectInputEvent evt).
Proof. destruct c; first [by left; eexists|by right]. Qed.

(** An injected event changes the registry and the ignore set in one of
    three ways. *)
Lemma InjectInputEvent_cases (evt : SDL_Event) (s : VJoyState) :
  let s' := InjectInputEvent SDL_GetTouch evt s in
  (ignoredFingers s' = ignoredFingers s ∧ lastFingerPos s' = lastFingerPos s) ∨
  (ev_type evt = SDL_FINGERUP ∧ vjoy_enabled s = true ∧
   ignoredFingers s' = ignoredFingers s ∖ {[tfinger_fingerId evt]} ∧
   lastFingerPos s' = delete (tfinger_fingerId evt) (lastFingerPos s)) ∨
  (ev_type evt ≠ SDL_FINGERUP ∧ (tfinger_fingerId evt ∉ ignoredFingers s) ∧
   ignoredFingers s' = ignoredFingers s ∧
   ∃ p, lastFingerPos s' = <[tfinger_fingerId evt := p]> (lastFingerPos s)).
Proof.
  unfold InjectInputEvent.
  destruct (vjoy_enabled s); simpl; [|by left].
  case_bool_decide as Hup; [right; left; done|].
  case_bool_decide as Hg; [by left|].
  destruct (F32.ltb (xres s) F32.zero).
  - destruct (SDL_GetTouch _) as [[xr yr]|]; [|by left].
    simpl. case_bool_decide as Hin; [by left|].
    right; right. repeat split; try done. by eexists.
  - case_bool_decide as Hin; [by left|].
    right; right. repeat split; try done. by eexists.
Qed.

Lemma InjectInputEvent_ignored_untracked (evt : SDL_Event) (s : VJoyState) :
  ignored_untracked s → ignored_untracked (InjectInputEvent SDL_GetTouch evt s).
Proof.
  intros Hinv id.
  destruct (InjectInputEvent_cases evt s)
    as [[-> ->]|[(_ & _ & -> & ->)|(_ & Hnin & -> & p & ->)]].
  - apply Hinv.
  - intros [Hid Hne]%elem_of_difference.
    rewrite lookup_delete_ne; [by apply Hinv|].
    intros Heq. apply Hne, elem_of_singleton. congruence.
  - intros Hid. rewrite lookup_insert_ne; [by apply Hinv|]. congruence.
Qed.

Lemma step_ignored_untracked (c : Call) (s s' : VJoyState) :
  step CONFIG_USE_TAPS NDEBUG settings_tap SDL_GetTouch c s = Done s' →
  ignored_untracked s → ignored_untracked s'.
Proof.
  intros H Hinv.
  destruct (Call_inject_or_not c) as [[evt ->]|Hc].
  - injection H as <-. by apply InjectInputEvent_ignored_untracked.
  - apply step_quiet in H as (_ & Hb & Hc'); [|done].
    intros id Hid. destruct (Hc' id Hid); auto.
Qed.

(** One call that is not a finger-up for [id] keeps an ignored,
    untracked [id] ignored and untracked. *)
Lemma step_keeps_out (id : Z) (c : Call) (s s' : VJoyState) :
  step CONFIG_USE_TAPS NDEBUG settings_tap SDL_GetTouch c s = Done s' →
  is_finger_up id c = false →
  id ∈ ignoredFingers s →
  id ∈ ignoredFingers s' ∧
  (lastFingerPos s !! id = None → lastFingerPos s' !! id = None).
Proof.
  intros H Hup Hid.
  destruct (Call_inject_or_not c) as [[evt ->]|Hc].
  - injection H as <-. simpl in Hup.
    destruct (InjectInputEvent_cases evt s)
      as [[-> ->]|[(Hu & _ & -> & ->)|(_ & Hnin & -> & p & ->)]].
    + done.
    + rewrite bool_decide_eq_true_2 in Hup by done. simpl in Hup.
      apply bool_decide_eq_false in Hup.
      split.
      * apply elem_of_difference. split; [done|].
        intros Heq%elem_of_singleton. congruence.
      * intros Hn. rewrite lookup_delete_ne; [done|congruence].
    + split; [done|]. intros Hn.
      rewrite lookup_insert_ne; [done|congruence].
  - apply step_quiet in H as (Ha & Hb & _); [|done]. auto.
Qed.

(** C8: a move/down sample injected for a finger of the ignore set
    leaves the registry as it is; a call after which a finger has left
    the ignore set is an observed finger-up event for that finger; so,
    along every sequence of calls without a finger-up for [id], an
    ignored and untracked [id] stays ignored and untracked, in
    particular from the state [ignoreAllCurrentFingers] leaves when [id]
    was tracked at the call; and in every state reached from the initial
    one no finger of the ignore set is in the registry. *)
Theorem ignored_finger_stays_out (id : Z) :
  (∀ evt s,
     id ∈ ignoredFingers s → tfinger_fingerId evt = id →
     ev_type evt ≠ SDL_FINGERUP →
     lastFingerPos (InjectInputEvent SDL_GetTouch evt s) = lastFingerPos s ∧
     id ∈ ignoredFingers (InjectInputEvent SDL_GetTouch evt s)) ∧
  (∀ c s s',
     step CONFIG_USE_TAPS NDEBUG settings_tap SDL_GetTouch c s = Done s' →
     id ∈ ignoredFingers s → id ∉ ignoredFingers s' →
     is_finger_up id c = true ∧ vjoy_enabled s = true) ∧
  (∀ cs s s',
     run CONFIG_USE_TAPS NDEBUG settings_tap SDL_GetTouch cs s = Done s' →
     no_finger_up id cs = true →
     id ∈ ignoredFingers s → lastFingerPos s !! id = None →
     id ∈ ignoredFingers s' ∧ lastFingerPos s' !! id = None) ∧
  (∀ cs s s',
     is_Some (lastFingerPos s !! id) →
     run CONFIG_USE_TAPS NDEBUG settings_tap SDL_GetTouch cs
       (ignoreAllCurrentFingers s) = Done s' →
     no_finger_up id cs = true →
     id ∈ ignoredFingers s' ∧ lastFingerPos s' !! id = None) ∧
  (∀ cs s',
     run CONFIG_USE_TAPS NDEBUG settings_tap SDL_GetTouch cs initial_state = Done s' →
     ignored_untracked s').
Proof.
  assert (Hrun : ∀ cs s s',
     run CONFIG_USE_TAPS NDEBUG settings_tap SDL_GetTouch cs s = Done s' →
     no_finger_up id cs = true →
     id ∈ ignoredFingers s → lastFingerPos s !! id = None →
     id ∈ ignoredFingers s' ∧ lastFingerPos s' !! id = None).
  { induction cs as [|c cs IH]; intros s s' H Hno Hid Hn; simpl in H.
    - by injection H as <-.
    - simpl in Hno. apply andb_true_iff in Hno as [Hc Hno].
      apply negb_true_iff in Hc.
      destruct (step _ _ _ _ c s) as [s1| |] eqn:Hs; try discriminate H.
      destruct (step_keeps_out id c s s1 Hs Hc Hid) as [Hid1 Hn1].
      apply (IH s1 s'); auto. }
  split; [|split; [|split; [exact Hrun|split]]].
  - intros evt s Hid Hevt Hup.
    destruct (InjectInputEvent_cases evt s)
      as [[Hi Hr]|[(Hu & _)|(_ & Hnin & _)]].
    + by rewrite Hi, Hr.
    + done.
    + by rewrite Hevt in Hnin.
  - intros c s s' H Hid Hnid.
    destruct (is_finger_up id c) eqn:Hup.
    + split; [done|]. destruct c; try discriminate Hup.
      injection H as <-. unfold InjectInputEvent in Hnid.
      destruct (vjoy_enabled s); [done|]. by simpl in Hnid.
    + by destruct (step_keeps_out id c s s' H Hup Hid).
  - intros cs s s' [p Hp] H Hno.
    apply (Hrun cs (ignoreAllCurrentFingers s) s' H Hno).
    + unfold ignoreAllCurrentFingers. simpl.
      apply elem_of_union. right. apply elem_of_dom. by exists p.
    + apply lookup_empty.
  - intros cs.
    assert (Hinit : ignored_untracked initial_state) by (intros j Hj; apply lookup_empty).
    revert Hinit. generalize initial_state.
    induction cs as [|c cs IH]; intros s Hinv s' H; simpl in H.
    + by injection H as <-.
    + destruct (step _ _ _ _ c s) as [s1| |] eqn:Hs; try discriminate H.
      apply (IH s1); [|done]. by eapply step_ignored_untracked.
Qed.

End Properties.

(** ** The wheel and the two-finger tick, evaluated *)




(** C1 fails on the code: in normal gameplay, once finger 1 is down on
    the left of the wheel and finger 2 on its right, each finger alone
    sets its own direction, but [ProcessInput] returns with the left
    flag cleared by the dispatch of finger 2, so the flag array is not
    the union of the two. *)
Theorem ProcessInput_two_fingers_on_wheel :
  ∃ s s' l1 l2,
    run true false (fun _ => Settings.Tap.EBOTH) touch_100
      two_fingers_on_wheel initial_state = Done s ∧
    fingers s = [(1, wheel_left); (2, wheel_right)] ∧
    ProcessInput s = Done s' ∧
    alone wheel_left s = Done l1 ∧
    alone wheel_right s = Done l2 ∧
    flag l1 LEFTKEY = true ∧ flag l2 RIGHTKEY = true ∧
    flag (flags_union l1 l2) LEFTKEY = true ∧
    flag (inputs s') LEFTKEY = false ∧ flag (inputs s') RIGHTKEY = true ∧
    inputs s' ≠ flags_union l1 l2.
Proof.
  eexists _, _, _, _.
  split; [vm_compute; reflexivity|].
  split; [vm_compute; reflexivity|].
  split; [vm_compute; reflexivity|].
  split; [vm_compute; reflexivity|].
  split; [vm_compute; reflexivity|].
  repeat split; by vm_compute.
Qed.

(** ** Instances *)

Lemma getModeFromSettings_spec_witness :
  VjoyMode_getModeFromSettings false (fun _ => Settings.Tap.ETAP) Settings.Tap.ETitle
    = Done VjoyMode.EGESTURE ∧
  VjoyMode_getModeFromSettings false (fun _ => Settings.Tap.EUnrecognized 7)
    Settings.Tap.ETitle = AssertFailed.
Proof.
  split.
  - apply (proj1 (getModeFromSettings_spec false (fun _ => Settings.Tap.ETAP)
                    Settings.Tap.ETitle)).
    reflexivity.
  - apply (proj1 (proj2 (proj2 (proj2
             (getModeFromSettings_spec false (fun _ => Settings.Tap.EUnrecognized 7)
                Settings.Tap.ETitle))) eq_refl)).
    reflexivity.
Defined.

Lemma InjectInputEvent_finger_up_witness :
  lastFingerPos
    (InjectInputEvent (fun _ => None) (mkEvent SDL_FINGERUP 1 0 10 20)
       one_finger_down) !! 1 = None.
Proof.
  apply (InjectInputEvent_finger_up (fun _ => None)
           (mkEvent SDL_FINGERUP 1 0 10 20) one_finger_down);
    reflexivity.
Defined.

Lemma setMode_spec_witness :
  vjoy_mode (VjoyMode_setMode true VjoyMode.EGESTURE one_finger_down)
    = VjoyMode.EGESTURE ∧
  lastFingerPos (VjoyMode_setMode true VjoyMode.EGESTURE one_finger_down) = ∅.
Proof.
  assert (Hne : VjoyMode.EGESTURE ≠ vjoy_mode one_finger_down) by (simpl; discriminate).
  pose proof (proj2 (setMode_spec VjoyMode.EGESTURE one_finger_down) Hne)
    as (Hm & _ & _ & Hg).
  split; [exact Hm|]. exact (proj1 (Hg eq_refl)).
Defined.

Lemma pad_on_enter_spec_witness :
  ∃ s', pad_on_enter true false (fun _ => Settings.Tap.EBOTH) GM_TITLE initial_state
          = Done s' ∧
        vjoy_mode s' = VjoyMode.EBOTH.
Proof.
  apply (proj2 (proj2 (proj2 (pad_on_enter_spec true false (fun _ => Settings.Tap.EBOTH)
                                initial_state))
                  GM_TITLE Settings.Tap.ETitle eq_refl)).
  reflexivity.
Defined.

(** The claim C4 fails on the code: entering the island mode from the
    initial state, whose touch mode is touch-only, returns with the
    touch mode still touch-only, not both; likewise for credits. *)
Lemma on_enter_island_keeps_mode :
  ∃ s1 s2,
    pad_on_enter true false (fun _ => Settings.Tap.EBOTH) GM_ISLAND initial_state = Done s1 ∧
    pad_on_enter true false (fun _ => Settings.Tap.EBOTH) GM_CREDITS initial_state = Done s2 ∧
    vjoy_mode s1 = VjoyMode.ETOUCH ∧ vjoy_mode s1 ≠ VjoyMode.EBOTH ∧
    vjoy_mode s2 = VjoyMode.ETOUCH ∧ vjoy_mode s2 ≠ VjoyMode.EBOTH.
Proof.
  exists initial_state, initial_state. repeat split; try reflexivity; discriminate.
Qed.

Lemma specScreenChanged_leave_empty_witness :
  ∃ s', specScreenChanged true false (fun _ => Settings.Tap.EBOTH) EYesNo false
          one_finger_down = Done s' ∧
        s' = ignoreAllCurrentFingers one_finger_down.
Proof.
  destruct (specScreenChanged_leave_empty true false (fun _ => Settings.Tap.EBOTH)
              EYesNo one_finger_down eq_refl) as (s' & H1 & H2 & _).
  exists s'. split; [exact H1|exact H2].
Defined.

(** The claim C5 fails on the code: with a finger down and the context
    stack empty, leaving a screen returns with that finger moved from
    the registry to the ignore set. *)
Lemma leave_on_empty_stack_moves_fingers :
  states one_finger_down = [] ∧
  ∃ s', specScreenChanged true false (fun _ => Settings.Tap.EBOTH) EYesNo false
          one_finger_down = Done s' ∧
        s' ≠ one_finger_down ∧
        is_Some (lastFingerPos one_finger_down !! 1) ∧
        lastFingerPos s' !! 1 = None ∧
        (1 ∉ ignoredFingers one_finger_down) ∧
        1 ∈ ignoredFingers s'.
Proof.
  split; [reflexivity|]. eexists. split; [reflexivity|].
  split.
  { intros Heq. apply (f_equal (fun s => lastFingerPos s !! 1)) in Heq.
    vm_compute in Heq. discriminate Heq. }
  split; [by eexists|]. split; [reflexivity|].
  split; [apply not_elem_of_empty|].
  unfold ignoreAllCurrentFingers. simpl.
  apply elem_of_union. right. apply elem_of_dom. by eexists.
Qed.

Lemma specScreenChanged_round_trip_witness :
  ∃ s1 s2,
    specScreenChanged true false (fun _ => Settings.Tap.ETAP) ETextBox true
      one_finger_down = Done s1 ∧
    specScreenChanged true false (fun _ => Settings.Tap.ETAP) ETextBox false s1 = Done s2 ∧
    vjoy_mode s2 = VjoyMode.ETOUCH ∧ textbox_mode s2 = false.
Proof.
  destruct (specScreenChanged_round_trip true false (fun _ => Settings.Tap.ETAP)
              ETextBox ETextBox one_finger_down eq_refl)
    as (s1 & s2 & H1 & H2 & Hm & _ & Ht & _).
  exists s1, s2. repeat split; assumption.
Defined.

Lemma paused_options_forward_witness :
  pad_update_buttons GP_PAUSED wheel_left
    (set_ppads true (set_textbox_mode true initial_state))
  = pad_update_buttons GM_NORMAL wheel_left
      (set_ppads true (set_textbox_mode true initial_state)).
Proof.
  exact (proj1 (paused_options_forward wheel_left
                  (set_ppads true (set_textbox_mode true initial_state))
                  320 240 eq_refl)).
Defined.

Lemma ignored_finger_stays_out_witness :
  ∃ s',
    run true false (fun _ => Settings.Tap.EBOTH) (fun _ => Some (F32.of_Z 320, F32.of_Z 240))
      [CallInjectInputEvent (mkEvent SDL_FINGERMOTION 1 0 16 204); CallProcessInput]
      (ignoreAllCurrentFingers one_finger_down) = Done s' ∧
    1 ∈ ignoredFingers s' ∧ lastFingerPos s' !! 1 = None.
Proof.
  eexists. split; [reflexivity|].
  apply (proj1 (proj2 (proj2 (proj2
           (ignored_finger_stays_out true false (fun _ => Settings.Tap.EBOTH)
              (fun _ => Some (F32.of_Z 320, F32.of_Z 240)) 1))))
           [CallInjectInputEvent (mkEvent SDL_FINGERMOTION 1 0 16 204); CallProcessInput]
           one_finger_down).
  - by eexists.
  - reflexivity.
  - reflexivity.
Defined.
